(** * Asset registry and options aggregation of [webapp/app.py]

    A shallow embedding of the two classes of [webapp/app.py]:
    [AssetManager] (the asset registry kept in the Redis document
    [config:assets]) and [OptionsDataProvider] (the scan, filter, normalise
    and rank pipeline over the [option:*] hashes).

    Modelling conventions.
    - Python [str] values are [string]s; the string methods the code calls
      ([upper], [replace], [split], [endswith], [in]) are written out below.
      [upper] maps the ASCII letters only.
    - A Python [dict] is a [gmap]; the registry document is the dictionary
      that [json.dumps] wrote, [json.loads] being its inverse.
    - The Redis server and the Bybit HTTP endpoint are external: the store
      is a value that answers [KEYS] and [HGETALL], the endpoint an oracle
      from the [baseCoin] parameter to the outcome of the request.  The
      connection to the server is up: [GET], [SET] and [KEYS] return.
    - Python [float]s are the carrier of a class [PyFloat] that provides
      [float(...)] and the comparison; field values are not NaN.
    - The class attribute [DEFAULT_ASSETS] is a mutable dictionary shared by
      every call; it is part of the state, and [get_assets] returns an alias
      of it when it seeds the store. *)

From Stdlib Require Import String Ascii List ZArith Lia Bool.
From stdpp Require Import gmap strings list fin_maps sorting.

#[local] Set Warnings "-clear-no-such-hyp".
Local Open Scope string_scope.

(** ** Python string methods *)

Module PyStr.

(** [c.upper()] on an ASCII character. *)
Definition upper_ascii (c : ascii) : ascii :=
  let n := nat_of_ascii c in
  if (97 <=? n)%nat && (n <=? 122)%nat then ascii_of_nat (n - 32) else c.

(** [s.upper()]. *)
Fixpoint upper (s : string) : string :=
  match s with
  | EmptyString => EmptyString
  | String c s' => String (upper_ascii c) (upper s')
  end.

(** [s.startswith(p)]. *)
Fixpoint startswith (p s : string) : bool :=
  match p, s with
  | EmptyString, _ => true
  | String a p', String b s' => if Ascii.eqb a b then startswith p' s' else false
  | String _ _, EmptyString => false
  end.

(** [sub in s]. *)
Fixpoint contains (sub s : string) : bool :=
  startswith sub s ||
  match s with
  | EmptyString => false
  | String _ s' => contains sub s'
  end.

(** [s.endswith(suf)]: some suffix of [s] is [suf]. *)
Fixpoint endswith (suf s : string) : bool :=
  if String.eqb s suf then true
  else match s with
       | EmptyString => false
       | String _ s' => endswith suf s'
       end.

(** [s.replace(old, new)] for a non-empty [old]: the occurrences of [old]
    are found from the left and do not overlap.  [skip] counts the
    characters of the current occurrence that are still to be dropped. *)
Fixpoint replace_from (old new : string) (skip : nat) (s : string) : string :=
  match s with
  | EmptyString => EmptyString
  | String c s' =>
      match skip with
      | S k => replace_from old new k s'
      | O =>
          if startswith old s
          then new ++ replace_from old new (String.length old - 1) s'
          else String c (replace_from old new 0 s')
      end
  end.

Definition replace (old new s : string) : string := replace_from old new 0 s.

(** [s.split(sep)] for a separator of one character. *)
Fixpoint split (sep : ascii) (s : string) : list string :=
  match s with
  | EmptyString => [EmptyString]
  | String c s' =>
      if Ascii.eqb c sep then EmptyString :: split sep s'
      else match split sep s' with
           | h :: t => String c h :: t
           | [] => [String c EmptyString]
           end
  end.

(** [s.count(c)] for a character [c]. *)
Fixpoint count (c : ascii) (s : string) : nat :=
  match s with
  | EmptyString => 0
  | String a s' => (if Ascii.eqb a c then 1 else 0) + count c s'
  end.

(** Truth value of a string: the empty string is false. *)
Definition truthy (s : string) : bool :=
  match s with EmptyString => false | _ => true end.

End PyStr.

(** ** The asset registry: [AssetManager] *)

(** One entry of the registry dictionary.  The seed entries carry no
    [added_date] key. *)
Record Asset := mkAsset {
  name : string;
  enabled : bool;
  order : nat;
  added_date : option string
}.

Global Instance Asset_eq_dec : EqDecision Asset.
Proof. solve_decision. Defined.

(** What leaves the process: a [SET config:assets] with the dumped
    dictionary, or the GET request of [test_asset] with its [baseCoin]. *)
Inductive Event :=
  | EvSet (d : gmap string Asset)
  | EvProbe (baseCoin : string).

(** The state the four operations share: the document stored under
    [ASSETS_KEY] ([None] when the key is absent), the current value of the
    class attribute [DEFAULT_ASSETS], and the log of external effects
    (latest first). *)
Record World := mkWorld {
  doc : option (gmap string Asset);
  DEFAULT_ASSETS : gmap string Asset;
  trace : list Event
}.

(** The value [DEFAULT_ASSETS] is bound to when the class is created. *)
Definition SEED_ASSETS : gmap string Asset :=
  <["BTC" := mkAsset "Bitcoin" true 1 None]>
  (<["ETH" := mkAsset "Ethereum" true 2 None]>
  (<["SOL" := mkAsset "Solana" true 3 None]> ∅)).

(** The process right after import, over a store whose document is [d]. *)
Definition process_start (d : option (gmap string Asset)) : World :=
  mkWorld d SEED_ASSETS [].

(** State-passing computations over [World]. *)
Definition M (A : Type) : Type := World → A * World.

Definition ret {A} (a : A) : M A := fun w => (a, w).

Definition bind {A B} (m : M A) (k : A → M B) : M B :=
  fun w => let (a, w') := m w in k a w'.

Declare Scope py_scope.
Delimit Scope py_scope with py.
Notation "'let*' x ':=' m 'in' k" := (bind m (fun x => k))
  (at level 10, x name, m at level 100, k at level 200) : py_scope.
Local Open Scope py_scope.

(** The dictionary object a local variable [assets] is bound to: the class
    attribute itself, or a dictionary freshly built by [json.loads]. *)
Inductive dictref :=
  | ClassDefaults
  | Fresh (d : gmap string Asset).

Definition read (r : dictref) : M (gmap string Asset) :=
  fun w => (match r with ClassDefaults => DEFAULT_ASSETS w | Fresh d => d end, w).

(** In-place update of the dictionary behind a reference. *)
Definition modify (r : dictref) (f : gmap string Asset → gmap string Asset) : M dictref :=
  fun w =>
    match r with
    | ClassDefaults =>
        (ClassDefaults, mkWorld (doc w) (f (DEFAULT_ASSETS w)) (trace w))
    | Fresh d => (Fresh (f d), w)
    end.

Definition has_key (k : string) (d : gmap string Asset) : bool :=
  match d !! k with Some _ => true | None => false end.

Definition redis_get : M (option (gmap string Asset)) := fun w => (doc w, w).

(** [save_assets]: the [SET] succeeds and the method returns [True]. *)
Definition save_assets (assets : gmap string Asset) : M bool :=
  fun w => (true, mkWorld (Some assets) (DEFAULT_ASSETS w) (EvSet assets :: trace w)).

Definition get_assets : M dictref :=
  let* assets_json := redis_get in
  match assets_json with
  | Some d => ret (Fresh d)
  | None =>
      let* d := read ClassDefaults in
      let* _ := save_assets d in
      ret ClassDefaults
  end.

(** The dictionary a caller of [get_assets] sees. *)
Definition getAll : M (gmap string Asset) :=
  let* r := get_assets in read r.

(** Outcome of the request of [test_asset]: an exception (time-out after
    five seconds, connection error, a body that is not a JSON object), or a
    JSON object with the integer its [retCode] equals ([None] when the key
    is missing or its value equals no integer) and the items of
    [result.list] (none when either key is missing). *)
Inductive HttpOutcome :=
  | Raised
  | Json (retCode : option Z) (items : list string).

(** The value [test_asset] returns on an outcome: [len(items) > 0] when
    [retCode] is [0], [False] otherwise and in the [except] branch. *)
Definition found_options (o : HttpOutcome) : bool :=
  match o with
  | Raised => false
  | Json (Some 0%Z) items => Nat.ltb 0 (length items)
  | Json _ _ => false
  end.

Definition test_asset (http : string → HttpOutcome) (symbol : string) : M bool :=
  fun w =>
    let baseCoin := PyStr.upper symbol in
    (found_options (http baseCoin),
     mkWorld (doc w) (DEFAULT_ASSETS w) (EvProbe baseCoin :: trace w)).

(** The entry [add_asset] inserts into a dictionary [d]. *)
Definition new_asset (d : gmap string Asset) (name now : string) : Asset :=
  mkAsset name true (size d + 1) (Some now).

(** The entry [toggle_asset] leaves in place of [a]. *)
Definition toggled (a : Asset) : Asset :=
  mkAsset (name a) (negb (enabled a)) (order a) (added_date a).

(** The dictionaries [add_asset] returns. *)
Inductive AddResult :=
  | Error (error : string)
  | Success (message : string).

Definition AlreadyExists (symbol : string) : AddResult :=
  Error ("Asset " ++ symbol ++ " already exists").

Definition NoInstrumentsAvailable (symbol : string) : AddResult :=
  Error ("No options found for " ++ symbol ++ " on Bybit").

(** [now] is the value of [datetime.now().isoformat()]. *)
Definition add_asset (http : string → HttpOutcome) (now : string)
    (symbol name : string) : M AddResult :=
  let* assets := get_assets in
  let* d := read assets in
  if has_key (PyStr.upper symbol) d then ret (AlreadyExists symbol)
  else
    let* found := test_asset http symbol in
    if negb found then ret (NoInstrumentsAvailable symbol)
    else
      let* assets := modify assets
        (fun d => <[PyStr.upper symbol := new_asset d name now]> d) in
      let* d := read assets in
      let* _ := save_assets d in
      ret (Success ("Added " ++ symbol)).

Definition toggle_asset (symbol : string) : M bool :=
  let* assets := get_assets in
  let* d := read assets in
  if has_key symbol d then
    let* assets := modify assets (alter toggled symbol) in
    let* d := read assets in
    let* _ := save_assets d in
    ret true
  else ret false.

Definition remove_asset (symbol : string) : M bool :=
  let* assets := get_assets in
  let* d := read assets in
  let* defaults := read ClassDefaults in
  if has_key symbol d && negb (has_key symbol defaults) then
    let* assets := modify assets (delete symbol) in
    let* d := read assets in
    let* _ := save_assets d in
    ret true
  else ret false.

(** The registry operations a client can issue. *)
Inductive Op :=
  | OpGetAll
  | OpAdd (http : string → HttpOutcome) (now symbol name : string)
  | OpToggle (symbol : string)
  | OpRemove (symbol : string).

Definition run_op (o : Op) (w : World) : World :=
  match o with
  | OpGetAll => snd (getAll w)
  | OpAdd http now symbol name => snd (add_asset http now symbol name w)
  | OpToggle symbol => snd (toggle_asset symbol w)
  | OpRemove symbol => snd (remove_asset symbol w)
  end.

(** States reached from [w0] by a sequence of operations. *)
Inductive reachable (w0 : World) : World → Prop :=
  | reach_here : reachable w0 w0
  | reach_step w o : reachable w0 w → reachable w0 (run_op o w).

(** The state after the first [get_assets] of a process over a store that
    has no registry document. *)
Definition bootstrapped : World := snd (getAll (process_start None)).

(** Two endpoints: one that lists an instrument for every coin, one that
    lists none. *)
Definition has_options : string → HttpOutcome := fun _ => Json (Some 0%Z) ["XRP-30JUN24-1-C"].
Definition no_options : string → HttpOutcome := fun _ => Json (Some 0%Z) [].

(** The ways the request yields no instrument. *)
Inductive probe_failure : HttpOutcome → Prop :=
  | probe_raised : probe_failure Raised
  | probe_bad_code rc items : rc ≠ Some 0%Z → probe_failure (Json rc items)
  | probe_no_items rc : probe_failure (Json rc []).


(** The bootstrapped registry after XRP has been added. *)
Definition with_xrp : World :=
  run_op (OpAdd has_options "2024-06-01T00:00:00" "xrp" "Ripple") bootstrapped.

(** ** The options view: [OptionsDataProvider] *)

(** The values of Python's [float] that the store's numeric fields denote,
    with the two operations the code applies to them: [float(...)] on the
    integer [0] and on a string ([None] stands for [ValueError]), and the
    comparison [list.sort] ranks them by.  The comparison is a total
    preorder: the model covers field values other than NaN. *)
Class PyFloat := {
  pyfloat : Type;
  float_zero : pyfloat;
  float_of_str : string → option pyfloat;
  float_le : pyfloat → pyfloat → bool;
  float_le_total : ∀ x y, float_le x y = true ∨ float_le y x = true;
  float_le_trans : ∀ x y z,
    float_le x y = true → float_le y z = true → float_le x z = true
}.

(** The Redis database the provider reads: the reply to [KEYS pattern],
    and the reply to [HGETALL key] ([None] when the command raises, as it
    does on a key that holds no hash). *)
Record Redis := mkRedis {
  KEYS : string → list string;
  HGETALL : string → option (gmap string string)
}.

(** The scan cap of [keys[:500]]. *)
Definition SCAN_CAP : nat := 500.

Section OptionsDataProvider.
Context {F : PyFloat}.

(** One dictionary of the returned list. *)
Record Row := mkRow {
  symbol : string;
  expiry : string;
  strike : string;
  type : string;
  last_price : pyfloat;
  mark_price : pyfloat;
  volume_24h : pyfloat;
  open_interest : pyfloat;
  delta : pyfloat;
  gamma : pyfloat;
  theta : pyfloat;
  vega : pyfloat;
  iv : pyfloat;
  underlying : pyfloat;
  timestamp : pyfloat
}.

(** [float(data.get(key, 0) or 0)]. *)
Definition float_field (data : gmap string string) (key : string) : option pyfloat :=
  match data !! key with
  | Some s => if PyStr.truthy s then float_of_str s else Some float_zero
  | None => Some float_zero
  end.

(** The test guarding the first [continue]: the expiry filter is set, is
    not ["all"], and the symbol has a second component that differs. *)
Definition expiry_rejects (expiry : option string) (parts : list string) : bool :=
  match expiry with
  | Some e =>
      PyStr.truthy e && negb (String.eqb e "all") &&
      match parts !! 1%nat with
      | Some p => negb (String.eqb p e)
      | None => false
      end
  | None => false
  end.

(** The tests guarding the two [continue]s of the type filter. *)
Definition type_rejects (option_type : option string) (symbol : string) : bool :=
  match option_type with
  | Some t =>
      PyStr.truthy t && negb (String.eqb t "all") &&
      ((String.eqb t "call" && negb (PyStr.endswith "-C" symbol)
          && negb (PyStr.endswith "-C-USDT" symbol))
       || (String.eqb t "put" && negb (PyStr.endswith "-P" symbol)
          && negb (PyStr.endswith "-P-USDT" symbol)))
  | None => false
  end.

(** The symbol ends the way the call (the put) filter asks for. *)
Definition ends_as_call (symbol : string) : bool :=
  PyStr.endswith "-C" symbol || PyStr.endswith "-C-USDT" symbol.

Definition ends_as_put (symbol : string) : bool :=
  PyStr.endswith "-P" symbol || PyStr.endswith "-P-USDT" symbol.

(** A filter argument that filters nothing: absent, empty, or ["all"]. *)
Definition no_filter (f : option string) : Prop :=
  f = None ∨ f = Some "" ∨ f = Some "all".

(** The symbol and the components [loop_body] derives from a key. *)
Definition symbol_of_key (key : string) : string := PyStr.replace "option:" "" key.
Definition parts_of_key (key : string) : list string :=
  PyStr.split "-" (symbol_of_key key).

(** The ["type"] entry of a row. *)
Definition type_of_symbol (symbol : string) : string :=
  if PyStr.contains "-C" symbol then "Call" else "Put".

(** The dictionary appended for a symbol; [None] when a [float] raises. *)
Definition format_row (symbol : string) (parts : list string)
    (data : gmap string string) : option Row :=
  lp ← float_field data "last_price";
  mp ← float_field data "mark_price";
  vol ← float_field data "volume_24h";
  oi ← float_field data "open_interest";
  de ← float_field data "delta";
  ga ← float_field data "gamma";
  th ← float_field data "theta";
  ve ← float_field data "vega";
  miv ← float_field data "mark_iv";
  up ← float_field data "underlying_price";
  ts ← float_field data "timestamp";
  Some (mkRow symbol
          (default "N/A" (parts !! 1%nat))
          (default "N/A" (parts !! 2%nat))
          (type_of_symbol symbol)
          lp mp vol oi de ga th ve miv up ts).

(** The numeric entries of a row: the hash field read, and the entry. *)
Definition numeric_fields : list (string * (Row → pyfloat)) :=
  [ ("last_price", last_price); ("mark_price", mark_price);
    ("volume_24h", volume_24h); ("open_interest", open_interest);
    ("delta", delta); ("gamma", gamma); ("theta", theta); ("vega", vega);
    ("mark_iv", iv); ("underlying_price", underlying);
    ("timestamp", timestamp) ].

(** One iteration of the loop: [None] when it ends in [continue] (empty
    hash, a filter, or an exception caught by the [except] clause),
    otherwise the row it appends. *)
Definition loop_body (r : Redis) (expiry option_type : option string)
    (key : string) : option Row :=
  match HGETALL r key with
  | None => None
  | Some data =>
      if bool_decide (data = ∅) then None
      else
        let symbol := PyStr.replace "option:" "" key in
        let parts := PyStr.split "-" symbol in
        if expiry_rejects expiry parts then None
        else if type_rejects option_type symbol then None
        else format_row symbol parts data
  end.

(** The [for] loop, with the list it appends to and the log of the keys it
    has issued [HGETALL] for. *)
Fixpoint loop (r : Redis) (expiry option_type : option string)
    (keys : list string) (options_data : list Row) (fetched : list string)
    : list Row * list string :=
  match keys with
  | [] => (options_data, fetched)
  | key :: keys' =>
      match loop_body r expiry option_type key with
      | Some row =>
          loop r expiry option_type keys' (options_data ++ [row]) (fetched ++ [key])
      | None =>
          loop r expiry option_type keys' options_data (fetched ++ [key])
      end
  end.

(** [list.sort(key=lambda x: x["volume_24h"], reverse=True)]: the stable
    sort by descending volume.  An element is placed before the first one
    whose volume is not greater than its own. *)
Fixpoint insert_by_volume (x : Row) (l : list Row) : list Row :=
  match l with
  | [] => [x]
  | y :: l' =>
      if float_le (volume_24h y) (volume_24h x) then x :: y :: l'
      else y :: insert_by_volume x l'
  end.

Fixpoint sort_by_volume (l : list Row) : list Row :=
  match l with
  | [] => []
  | x :: l' => insert_by_volume x (sort_by_volume l')
  end.


(** The volume of [x] equals [v] as [float]s compare. *)
Definition volume_is (v : pyfloat) (x : Row) : Prop :=
  float_le v (volume_24h x) = true ∧ float_le (volume_24h x) v = true.

Global Instance volume_is_dec v x : Decision (volume_is v x).
Proof. unfold volume_is. apply _. Defined.

(** The rows of the keys [keys], in scan order. *)
Definition scanned (r : Redis) (expiry option_type : option string)
    (keys : list string) : list Row :=
  omap (loop_body r expiry option_type) keys.

(** [get_options_data]: the returned list, and the keys fetched. *)
Definition get_options_data (r : Redis) (asset : string)
    (expiry option_type : option string) : list Row * list string :=
  let pattern := "option:" ++ asset ++ "-*" in
  let keys := KEYS r pattern in
  let (options_data, fetched) :=
    loop r expiry option_type (take SCAN_CAP keys) [] [] in
  (sort_by_volume options_data, fetched).

End OptionsDataProvider.

(** ** The rest of [OptionsDataProvider] *)

(** [sorted(l)] on strings: ascending in the order of [str], which compares
    character by character and puts a proper prefix first. *)
Fixpoint insert_sorted (x : string) (l : list string) : list string :=
  match l with
  | [] => [x]
  | y :: l' =>
      if String.leb x y then x :: y :: l' else y :: insert_sorted x l'
  end.

Fixpoint sorted (l : list string) : list string :=
  match l with
  | [] => []
  | x :: l' => insert_sorted x (sorted l')
  end.

(** The loop of [get_expiries] over the set it fills: a symbol with more
    than one component adds its second one. *)
Fixpoint expiries_loop (keys : list string) (expiries : gset string) : gset string :=
  match keys with
  | [] => expiries
  | key :: keys' =>
      let symbol := PyStr.replace "option:" "" key in
      let parts := PyStr.split "-" symbol in
      match parts !! 1%nat with
      | Some e => expiries_loop keys' ({[e]} ∪ expiries)
      | None => expiries_loop keys' expiries
      end
  end.

Definition get_expiries (r : Redis) (asset : string) : list string :=
  let pattern := "option:" ++ asset ++ "-*" in
  let keys := KEYS r pattern in
  sorted (elements (expiries_loop keys ∅)).

(** What [get_stats] asks the server beside the hash [stats:global]: the
    replies to [DBSIZE] and to [INFO memory] ([None] when the command
    raises). *)
Record ServerInfo := mkServerInfo {
  DBSIZE : option nat;
  INFO_memory : option (gmap string string)
}.

(** The dictionary [get_stats] builds. *)
Record Stats := mkStats {
  total_symbols : nat;
  messages_processed : Z;
  last_update : string;
  redis_memory : string
}.

(** [get_stats]; [None] is the empty dictionary of the [except] branch.
    [int_of_str] is [int(...)] on a string ([None] for [ValueError]); the
    default of [messages] is the integer [0]. *)
Definition get_stats (int_of_str : string → option Z) (r : Redis)
    (srv : ServerInfo) : option Stats :=
  stats ← HGETALL r "stats:global";
  db_size ← DBSIZE srv;
  messages ← match stats !! "messages" with
             | Some s => int_of_str s
             | None => Some 0%Z
             end;
  memory ← INFO_memory srv;
  Some (mkStats (db_size / 2) messages
          (default "N/A" (stats !! "last_update"))
          (default "N/A" (memory !! "used_memory_human"))).

(** ** The routes *)

(** A JSON body a registry route answers with: [{"success": b}],
    [{"error": e}], or [{"success": true, "message": m}]. *)
Inductive Body :=
  | JSuccess (success : bool)
  | JError (error : string)
  | JAdded (message : string).

Definition jsonify (result : AddResult) : Body :=
  match result with
  | Error e => JError e
  | Success m => JAdded m
  end.

(** [POST /api/assets/add] on a JSON object of strings: the body and the
    status code. *)
Definition route_add_asset (http : string → HttpOutcome) (now : string)
    (data : gmap string string) : M (Body * nat) :=
  let symbol := PyStr.upper (default "" (data !! "symbol")) in
  let name := default symbol (data !! "name") in
  if negb (PyStr.truthy symbol) then ret (JError "Symbol required", 400)
  else
    let* result := add_asset http now symbol name in
    match result with
    | Error _ => ret (jsonify result, 400)
    | Success _ => ret (jsonify result, 200)
    end.

(** [POST /api/assets/<symbol>/toggle]. *)
Definition route_toggle_asset (symbol : string) : M (Body * nat) :=
  let* success := toggle_asset symbol in
  ret (JSuccess success, 200).

(** [DELETE /api/assets/<symbol>/remove]. *)
Definition route_remove_asset (symbol : string) : M (Body * nat) :=
  let* success := remove_asset symbol in
  if success then ret (JSuccess true, 200)
  else ret (JError "Cannot remove default asset", 400).

(** The probe requests of a log. *)
Definition probes (t : list Event) : list string :=
  omap (fun e => match e with EvProbe c => Some c | EvSet _ => None end) t.

(** The writes of a log. *)
Definition writes (t : list Event) : list (gmap string Asset) :=
  omap (fun e => match e with EvSet d => Some d | EvProbe _ => None end) t.

(** ["-".join(parts)]. *)
Fixpoint join (sep : string) (parts : list string) : string :=
  match parts with
  | [] => ""
  | [p] => p
  | p :: rest => p ++ sep ++ join sep rest
  end.

Section Routes.
Context {F : PyFloat}.

(** [GET /api/options/<asset>] with its query arguments. *)
Definition route_get_options (r : Redis) (asset : string)
    (args : gmap string string) : list Row :=
  let expiry := default "all" (args !! "expiry") in
  let option_type := default "all" (args !! "type") in
  fst (get_options_data r asset (Some expiry) (Some option_type)).


End Routes.

(** *** A concrete store

    For the checks on concrete inputs: a database given by its entries in
    scan order, answering [KEYS prefix*] with the keys that start with the
    prefix, and fields that hold integer literals. *)

Definition digit_value (c : ascii) : option Z :=
  let n := nat_of_ascii c in
  if (48 <=? n)%nat && (n <=? 57)%nat then Some (Z.of_nat (n - 48)) else None.

Fixpoint digits_value (acc : Z) (s : string) : option Z :=
  match s with
  | EmptyString => Some acc
  | String c s' =>
      match digit_value c with
      | Some v => digits_value (10 * acc + v) s'
      | None => None
      end
  end.

(** [float(s)] on the strings that are decimal digits only; any other
    string is rejected. *)
Definition int_literal (s : string) : option Z :=
  if PyStr.truthy s then digits_value 0 s else None.

Definition IntFloat : PyFloat :=
  {| pyfloat := Z;
     float_zero := 0%Z;
     float_of_str := int_literal;
     float_le := Z.leb;
     float_le_total := fun x y =>
       match Z.le_ge_cases x y with
       | or_introl H => or_introl (proj2 (Z.leb_le x y) H)
       | or_intror H => or_intror (proj2 (Z.leb_le y x) H)
       end;
     float_le_trans := fun x y z Hxy Hyz =>
       proj2 (Z.leb_le x z)
         (Z.le_trans x y z (proj1 (Z.leb_le x y) Hxy) (proj1 (Z.leb_le y z) Hyz)) |}.

Definition store_of (db : list (string * gmap string string)) : Redis :=
  {| KEYS := fun pattern =>
       let prefix := String.substring 0 (String.length pattern - 1) pattern in
       filter (fun k => PyStr.startswith prefix k = true) (db.*1);
     HGETALL := fun key =>
       Some (default ∅ (snd <$> List.find (fun e => String.eqb (fst e) key) db)) |}.

Definition quote (last vol : string) : gmap string string :=
  <["last_price" := last]> (<["volume_24h" := vol]> ∅).

(** Three calls of one expiry with volumes 10, 50 and 30, a put of the same
    expiry, and a call of another expiry. *)
Definition sample_db : list (string * gmap string string) :=
  [ ("option:BTC-30JUN24-50000-C", quote "1200" "10");
    ("option:BTC-30JUN24-50000-P", quote "900" "20");
    ("option:BTC-30JUN24-60000-C", quote "800" "50");
    ("option:BTC-27SEP24-60000-C", quote "1500" "40");
    ("option:BTC-30JUN24-70000-C", quote "400" "30") ].

(** A symbol that ends in the put marker and has the call marker inside. *)
Definition marker_inside_db : list (string * gmap string string) :=
  [ ("option:BTC-C30JUN24-50000-P", quote "900" "20") ].

(** A symbol that carries no marker. *)
Definition no_marker_db : list (string * gmap string string) :=
  [ ("option:BTC-30JUN24-50000", quote "900" "20") ].

(** A call whose volume field is not a number. *)
Definition bad_volume_db : list (string * gmap string string) :=
  [ ("option:BTC-30JUN24-50000-C", quote "1200" "abc") ].

(** Two rows of equal volume behind a row of smaller volume. *)
Definition tie_db : list (string * gmap string string) :=
  [ ("option:ETH-30JUN24-3000-C", quote "90" "5");
    ("option:ETH-30JUN24-3200-C", quote "70" "20");
    ("option:ETH-30JUN24-3400-P", quote "60" "20") ].

(** * Properties *)

(** ** Sanity checks of the string methods *)

Example upper_btc : PyStr.upper "btc" = "BTC".
Proof. reflexivity. Qed.

Example replace_key :
  PyStr.replace "option:" "" "option:BTC-30JUN24-50000-C" = "BTC-30JUN24-50000-C".
Proof. reflexivity. Qed.

Example split_symbol :
  PyStr.split "-" "BTC-30JUN24-50000-C" = ["BTC"; "30JUN24"; "50000"; "C"].
Proof. reflexivity. Qed.

Example split_trailing : PyStr.split "-" "BTC-" = ["BTC"; ""].
Proof. reflexivity. Qed.

Example endswith_c_usdt : PyStr.endswith "-C-USDT" "SOL-30JUN24-150-C-USDT" = true.
Proof. reflexivity. Qed.

Example endswith_short : PyStr.endswith "-C-USDT" "-USDT" = false.
Proof. reflexivity. Qed.

(** ** Sanity checks of the registry *)

Example boot_doc : doc bootstrapped = Some SEED_ASSETS.
Proof. reflexivity. Qed.

Example add_xrp_keys :
  dom <$> doc (snd (add_asset has_options "2024-06-01T00:00:00" "xrp" "Ripple" bootstrapped))
  = Some (dom SEED_ASSETS ∪ {["XRP"]}).
Proof. vm_compute. reflexivity. Qed.

(** ** The registry operations, one by one *)

Ltac run_registry :=
  unfold getAll, add_asset, toggle_asset, remove_asset, get_assets,
    test_asset, bind, ret, redis_get, read, modify, save_assets in *;
  simpl in *.

Lemma has_key_dom (k : string) (d : gmap string Asset) :
  has_key k d = true ↔ k ∈ dom d.
Proof.
  unfold has_key. rewrite elem_of_dom.
  destruct (d !! k) as [a|]; split; intros H; try done; by destruct H.
Qed.

Lemma has_key_not_dom (k : string) (d : gmap string Asset) :
  has_key k d = false ↔ k ∉ dom d.
Proof.
  rewrite <- has_key_dom. destruct (has_key k d); split; intros H; try done;
    by destruct H.
Qed.

Lemma dom_SEED_ASSETS : dom SEED_ASSETS = ({["BTC"; "ETH"; "SOL"]} : gset string).
Proof. unfold SEED_ASSETS. rewrite !dom_insert_L, dom_empty_L. set_solver. Qed.

(** With a document in the store, reading the registry is silent. *)
Lemma getAll_stored (w : World) (d : gmap string Asset) :
  doc w = Some d → getAll w = (d, w).
Proof. intros H. run_registry. by rewrite H. Qed.




(** *** With a registry document in the store *)

Section Stored.
Variables (w : World) (d : gmap string Asset).
Hypothesis Hdoc : doc w = Some d.

Lemma add_asset_exists http now symbol nm :
  has_key (PyStr.upper symbol) d = true →
  add_asset http now symbol nm w = (AlreadyExists symbol, w).
Proof. intros Hk. run_registry. rewrite Hdoc. simpl. by rewrite Hk. Qed.

Lemma add_asset_no_options http now symbol nm :
  has_key (PyStr.upper symbol) d = false →
  found_options (http (PyStr.upper symbol)) = false →
  add_asset http now symbol nm w =
    (NoInstrumentsAvailable symbol,
     mkWorld (Some d) (DEFAULT_ASSETS w) (EvProbe (PyStr.upper symbol) :: trace w)).
Proof.
  intros Hk Hf. run_registry. rewrite Hdoc. simpl. rewrite Hk, Hf. simpl.
  by rewrite Hdoc.
Qed.

Lemma add_asset_success http now symbol nm :
  has_key (PyStr.upper symbol) d = false →
  found_options (http (PyStr.upper symbol)) = true →
  add_asset http now symbol nm w =
    (Success ("Added " ++ symbol),
     let d' := <[PyStr.upper symbol := new_asset d nm now]> d in
     mkWorld (Some d') (DEFAULT_ASSETS w)
             (EvSet d' :: EvProbe (PyStr.upper symbol) :: trace w)).
Proof. intros Hk Hf. run_registry. rewrite Hdoc. simpl. by rewrite Hk, Hf. Qed.

Lemma toggle_asset_known symbol :
  has_key symbol d = true →
  toggle_asset symbol w =
    (true, let d' := alter toggled symbol d in
           mkWorld (Some d') (DEFAULT_ASSETS w) (EvSet d' :: trace w)).
Proof. intros Hk. run_registry. rewrite Hdoc. simpl. by rewrite Hk. Qed.

Lemma toggle_asset_unknown symbol :
  has_key symbol d = false → toggle_asset symbol w = (false, w).
Proof. intros Hk. run_registry. rewrite Hdoc. simpl. by rewrite Hk. Qed.

Lemma remove_asset_done symbol :
  has_key symbol d = true →
  has_key symbol (DEFAULT_ASSETS w) = false →
  remove_asset symbol w =
    (true, let d' := delete symbol d in
           mkWorld (Some d') (DEFAULT_ASSETS w) (EvSet d' :: trace w)).
Proof. intros Hk Hn. run_registry. rewrite Hdoc. simpl. by rewrite Hk, Hn. Qed.

Lemma remove_asset_refused symbol :
  has_key symbol d = false ∨ has_key symbol (DEFAULT_ASSETS w) = true →
  remove_asset symbol w = (false, w).
Proof.
  intros Hk. run_registry. rewrite Hdoc. simpl.
  destruct Hk as [-> | ->]; [done|]. by rewrite andb_false_r.
Qed.

End Stored.

(** *** Bootstrap *)



(** *** Adding an asset *)

(** C7. When the upper-cased symbol is a key of the stored registry,
    [add_asset] returns the "already exists" error and the state is the one
    it started in: the document is untouched, nothing is written to the
    store and no request is sent to the endpoint. *)
Theorem add_asset_already_exists
    (http : string → HttpOutcome) (now symbol nm : string)
    (w : World) (d : gmap string Asset) :
  doc w = Some d →
  PyStr.upper symbol ∈ dom d →
  add_asset http now symbol nm w = (AlreadyExists symbol, w).
Proof.
  intros Hd Hk. eapply add_asset_exists; [done|]. by apply has_key_dom.
Qed.

Lemma add_asset_already_exists_witness :
  add_asset has_options "2024-06-01T00:00:00" "BTC" "Bitcoin" bootstrapped
  = (AlreadyExists "BTC", bootstrapped).
Proof.
  apply (add_asset_already_exists has_options "2024-06-01T00:00:00" "BTC"
           "Bitcoin" bootstrapped SEED_ASSETS).
  - reflexivity.
  - apply elem_of_dom. eexists. reflexivity.
Defined.

(** Without a document the first step of [add_asset] is the bootstrap: the
    seeds are written, and a default symbol is then found to exist. *)
Remark add_asset_unseeded_default :
  add_asset has_options "2024-06-01T00:00:00" "btc" "Bitcoin" (process_start None)
  = (AlreadyExists "btc", bootstrapped).
Proof. vm_compute. reflexivity. Qed.

Lemma probe_failure_found_options (o : HttpOutcome) :
  probe_failure o ↔ found_options o = false.
Proof.
  split.
  - intros [|rc items Hrc|rc]; simpl; [done| |];
      destruct rc as [[|p|p]|]; try done.
  - destruct o as [|rc items]; [intros _; apply probe_raised|].
    destruct rc as [[|p|p]|]; simpl; try (intros _; by apply probe_bad_code).
    destruct items; [intros _; apply probe_no_items | done].
Qed.

(** C8. When the upper-cased symbol is not a key of the stored registry and
    the request for it raises (time-out, network error), or answers with a
    [retCode] other than 0, or lists no instrument, [add_asset] returns the
    "no options found" error whichever of these happened; the document and
    the class defaults are as before, and the only effect is the request. *)
Theorem add_asset_no_instruments
    (http : string → HttpOutcome) (now symbol nm : string)
    (w : World) (d : gmap string Asset) :
  doc w = Some d →
  PyStr.upper symbol ∉ dom d →
  probe_failure (http (PyStr.upper symbol)) →
  add_asset http now symbol nm w =
    (NoInstrumentsAvailable symbol,
     mkWorld (Some d) (DEFAULT_ASSETS w) (EvProbe (PyStr.upper symbol) :: trace w)).
Proof.
  intros Hd Hk Hp. eapply add_asset_no_options; [done| |].
  - by apply has_key_not_dom.
  - by apply probe_failure_found_options.
Qed.

Lemma add_asset_no_instruments_witness :
  add_asset no_options "2024-06-01T00:00:00" "XRP" "Ripple" bootstrapped
  = (NoInstrumentsAvailable "XRP",
     mkWorld (Some SEED_ASSETS) SEED_ASSETS (EvProbe "XRP" :: trace bootstrapped)).
Proof.
  apply (add_asset_no_instruments no_options "2024-06-01T00:00:00" "XRP"
           "Ripple" bootstrapped SEED_ASSETS).
  - reflexivity.
  - apply not_elem_of_dom. reflexivity.
  - apply probe_no_items.
Defined.

(** *** Protected defaults *)






Example remove_btc_refused : remove_asset "BTC" with_xrp = (false, with_xrp).
Proof. vm_compute. reflexivity. Qed.

Example remove_xrp_done :
  fst (remove_asset "XRP" with_xrp) = true
  ∧ doc (snd (remove_asset "XRP" with_xrp)) = Some SEED_ASSETS.
Proof. vm_compute. split; reflexivity. Qed.

(** The guarantee starts at the bootstrapped state.  A process whose first
    registry call is an [add_asset] on a store without a document inserts
    the new entry into the class attribute itself, since [get_assets]
    returned that very dictionary; the entry then counts as a default and
    [remove_asset] refuses it. *)
Remark add_before_bootstrap_extends_defaults :
  let w := run_op (OpAdd has_options "2024-06-01T00:00:00" "XRP" "Ripple")
                  (process_start None) in
  has_key "XRP" (DEFAULT_ASSETS w) = true
  ∧ remove_asset "XRP" w = (false, w).
Proof. vm_compute. split; reflexivity. Qed.

(** *** Case of the symbol *)

(** C10. [toggle_asset] and [remove_asset] look the symbol up as given,
    [add_asset] looks up its upper-cased form: when the symbol is not a key
    of the stored registry but its upper-cased form is (["btc"] against
    ["BTC"]), both [toggle_asset] and [remove_asset] return [False] and
    change nothing, and [add_asset] rejects the symbol as existing. *)
Theorem symbol_case_mismatch (w : World) (d : gmap string Asset) (symbol : string) :
  doc w = Some d →
  symbol ∉ dom d →
  PyStr.upper symbol ∈ dom d →
  toggle_asset symbol w = (false, w)
  ∧ remove_asset symbol w = (false, w)
  ∧ ∀ http now nm, add_asset http now symbol nm w = (AlreadyExists symbol, w).
Proof.
  intros Hd Hn Hu. apply has_key_not_dom in Hn. apply has_key_dom in Hu.
  split; [|split].
  - by apply (toggle_asset_unknown w d Hd).
  - apply (remove_asset_refused w d Hd). by left.
  - intros http now nm. by apply (add_asset_exists w d Hd).
Qed.

Lemma symbol_case_mismatch_witness :
  toggle_asset "btc" bootstrapped = (false, bootstrapped)
  ∧ remove_asset "btc" bootstrapped = (false, bootstrapped)
  ∧ ∀ http now nm,
      add_asset http now "btc" nm bootstrapped = (AlreadyExists "btc", bootstrapped).
Proof.
  apply (symbol_case_mismatch bootstrapped SEED_ASSETS "btc").
  - reflexivity.
  - apply not_elem_of_dom. reflexivity.
  - apply elem_of_dom. eexists. reflexivity.
Defined.

(** ** The options view *)

Example sample_keys :
  KEYS (store_of sample_db) "option:BTC-*" = sample_db.*1.
Proof. vm_compute. reflexivity. Qed.

Example sample_query :
  (fun x => (symbol x, volume_24h x)) <$>
    fst (get_options_data (F := IntFloat) (store_of sample_db) "BTC"
           (Some "30JUN24") (Some "call"))
  = [("BTC-30JUN24-60000-C", 50%Z); ("BTC-30JUN24-70000-C", 30%Z);
     ("BTC-30JUN24-50000-C", 10%Z)].
Proof. vm_compute. reflexivity. Qed.

Section Ranking.
Context {F : PyFloat}.




Lemma insert_by_volume_perm x l : insert_by_volume x l ≡ₚ x :: l.
Proof.
  induction l as [|y l IH]; simpl; [done|].
  destruct (float_le _ _); [done|]. rewrite IH. apply Permutation_swap.
Qed.

Lemma sort_by_volume_perm l : sort_by_volume l ≡ₚ l.
Proof.
  induction l as [|x l IH]; simpl; [done|].
  by rewrite insert_by_volume_perm, IH.
Qed.








(** The loop appends the rows of its keys, in order, and fetches each key. *)
Lemma loop_spec r expiry option_type keys acc fetched :
  loop r expiry option_type keys acc fetched
  = ((acc ++ scanned r expiry option_type keys)%list, (fetched ++ keys)%list).
Proof.
  revert acc fetched. induction keys as [|key keys IH]; intros acc fetched; simpl.
  - by rewrite !app_nil_r.
  - unfold scanned. simpl. destruct (loop_body _ _ _ key) as [row|]; simpl;
      rewrite IH; unfold scanned; by rewrite <- !app_assoc.
Qed.

Lemma get_options_data_spec r asset expiry option_type :
  get_options_data r asset expiry option_type
  = let keys := take SCAN_CAP (KEYS r ("option:" ++ asset ++ "-*")) in
    (sort_by_volume (scanned r expiry option_type keys), keys).
Proof. unfold get_options_data. by rewrite loop_spec. Qed.

Lemma scanned_length r expiry option_type keys :
  (length (scanned r expiry option_type keys) ≤ length keys)%nat.
Proof.
  induction keys as [|key keys IH]; simpl; [done|].
  unfold scanned in *. simpl. destruct (loop_body _ _ _ key); simpl; lia.
Qed.

End Ranking.

(** *** Ranking *)


Example tie_keeps_scan_order :
  symbol (F := IntFloat) <$>
    fst (get_options_data (store_of tie_db) "ETH" None None)
  = ["ETH-30JUN24-3200-C"; "ETH-30JUN24-3400-P"; "ETH-30JUN24-3000-C"].
Proof. vm_compute. reflexivity. Qed.

(** *** Scan cap *)

(** C4. [get_options_data] fetches the first 500 keys of the reply to
    [KEYS] and no other, returns at most 500 rows, and returns the empty
    list when no key matches. *)
Theorem query_scan_cap (F : PyFloat) (r : Redis) (asset : string)
    (expiry option_type : option string) :
  let keys := KEYS r ("option:" ++ asset ++ "-*") in
  let (rows, fetched) := get_options_data r asset expiry option_type in
  fetched = take 500 keys
  ∧ (length fetched ≤ 500)%nat
  ∧ (length rows ≤ 500)%nat
  ∧ (keys = [] → rows = []).
Proof.
  rewrite get_options_data_spec. simpl.
  set (keys := KEYS r _).
  assert (length (take SCAN_CAP keys) ≤ 500)%nat as Hcap.
  { rewrite length_take. unfold SCAN_CAP. lia. }
  split; [done|]. split; [done|]. split.
  - rewrite (Permutation_length (sort_by_volume_perm _)).
    pose proof (scanned_length r expiry option_type (take SCAN_CAP keys)). lia.
  - intros ->. reflexivity.
Qed.

(** *** The Call/Put label *)

Lemma startswith_refl (s : string) : PyStr.startswith s s = true.
Proof. induction s as [|c s IH]; simpl; [done|]. by rewrite Ascii.eqb_refl. Qed.

Lemma endswith_cons (suf : string) (c : ascii) (s : string) :
  PyStr.endswith suf (String c s)
  = if String.eqb (String c s) suf then true else PyStr.endswith suf s.
Proof. reflexivity. Qed.

Lemma contains_cons (sub : string) (c : ascii) (s : string) :
  PyStr.contains sub (String c s)
  = PyStr.startswith sub (String c s) || PyStr.contains sub s.
Proof. reflexivity. Qed.

(** A symbol that ends in a marker contains it. *)
Lemma endswith_contains (suf s : string) :
  PyStr.endswith suf s = true → PyStr.contains suf s = true.
Proof.
  induction s as [|c s IH].
  - simpl. destruct (String.eqb_spec "" suf) as [<-|]; [done|].
    by destruct suf.
  - rewrite endswith_cons, contains_cons.
    destruct (String.eqb_spec (String c s) suf) as [<-|Hne].
    + intros _. by rewrite startswith_refl.
    + intros H. rewrite (IH H). apply orb_true_r.
Qed.

Lemma startswith_app_l (p q s : string) :
  PyStr.startswith (p ++ q) s = true → PyStr.startswith p s = true.
Proof.
  revert s. induction p as [|a p IH]; intros s; simpl; [done|].
  destruct s as [|b s]; [done|]. destruct (Ascii.eqb a b); [apply IH|done].
Qed.

Lemma contains_app_l (p q s : string) :
  PyStr.contains (p ++ q) s = true → PyStr.contains p s = true.
Proof.
  induction s as [|c s IH].
  - simpl. rewrite !orb_false_r. apply startswith_app_l.
  - rewrite !contains_cons. intros H. apply orb_true_iff in H as [H|H].
    + by rewrite (startswith_app_l _ _ _ H).
    + rewrite (IH H). apply orb_true_r.
Qed.

(** The label is "Call" whenever the symbol ends in "-C" or "-C-USDT". *)
Lemma type_of_symbol_call_suffix (s : string) :
  PyStr.endswith "-C" s = true ∨ PyStr.endswith "-C-USDT" s = true →
  type_of_symbol s = "Call".
Proof.
  intros H. unfold type_of_symbol.
  assert (PyStr.contains "-C" s = true) as ->; [|done].
  destruct H as [H|H]; [by apply endswith_contains|].
  apply endswith_contains in H. by apply (contains_app_l "-C" "-USDT").
Qed.

(** C2. The label is not decided by the end of the symbol: the symbol
    BTC-C30JUN24-50000-P ends in neither "-C" nor "-C-USDT", the type
    filter of the same function lets it through as a put and drops it as a
    call, and its row is labelled "Call". *)
Theorem type_label_marker_inside :
  let r := store_of marker_inside_db in
  PyStr.endswith "-C" "BTC-C30JUN24-50000-P" = false
  ∧ PyStr.endswith "-C-USDT" "BTC-C30JUN24-50000-P" = false
  ∧ (fun x => (symbol (F := IntFloat) x, type x)) <$>
      fst (get_options_data r "BTC" None (Some "put"))
    = [("BTC-C30JUN24-50000-P", "Call")]
  ∧ fst (get_options_data (F := IntFloat) r "BTC" None (Some "call")) = [].
Proof. vm_compute. by repeat split. Qed.

(** *** Keys, symbols and their components *)

Lemma startswith_app (p s : string) :
  PyStr.startswith p s = true → ∃ rest, s = p ++ rest.
Proof.
  revert s. induction p as [|a p IH]; intros s; simpl.
  - intros _. by exists s.
  - destruct s as [|b s]; [done|].
    destruct (Ascii.eqb_spec a b) as [->|]; [|done].
    intros H. destruct (IH s H) as [rest ->]. by exists rest.
Qed.

Lemma count_app (c : ascii) (p q : string) :
  PyStr.count c (p ++ q) = (PyStr.count c p + PyStr.count c q)%nat.
Proof. induction p as [|a p IH]; simpl; [done|]. rewrite IH. lia. Qed.

Lemma string_length_app (p q : string) :
  String.length (p ++ q) = (String.length p + String.length q)%nat.
Proof. induction p as [|a p IH]; simpl; [done|]. by rewrite IH. Qed.

(** Once an occurrence is found, the rest of it is skipped and the search
    resumes behind it. *)
Lemma replace_from_skip (old new pre rest : string) :
  PyStr.replace_from old new (String.length pre) (pre ++ rest)
  = PyStr.replace_from old new 0 rest.
Proof.
  induction pre as [|a pre IH]; simpl; [done|]. exact IH.
Qed.

Lemma replace_match (a : ascii) (old new rest : string) :
  PyStr.replace (String a old) new (String a old ++ rest)
  = new ++ PyStr.replace (String a old) new rest.
Proof.
  unfold PyStr.replace. simpl.
  assert (PyStr.startswith old (old ++ rest) = true) as ->.
  { clear. induction old as [|b old IH]; simpl; [done|].
    by rewrite Ascii.eqb_refl. }
  rewrite Ascii.eqb_refl, Nat.sub_0_r. by rewrite replace_from_skip.
Qed.

Lemma replace_no_match (old new : string) (c : ascii) (s : string) :
  PyStr.startswith old (String c s) = false →
  PyStr.replace old new (String c s) = String c (PyStr.replace old new s).
Proof. unfold PyStr.replace. simpl PyStr.replace_from. by intros ->. Qed.

(** Deleting the occurrences of a string without the character [c] keeps
    every [c]. *)
Lemma replace_count (c a : ascii) (old s : string) :
  PyStr.count c (String a old) = 0%nat →
  PyStr.count c (PyStr.replace (String a old) "" s) = PyStr.count c s.
Proof.
  intros Hold. remember (String.length s) as n eqn:Hn. revert s Hn.
  induction n as [n IH] using lt_wf_ind. intros s ->.
  destruct s as [|b s]; [done|].
  destruct (PyStr.startswith (String a old) (String b s)) eqn:Hm.
  - destruct (startswith_app _ _ Hm) as [rest Hrest]. rewrite Hrest.
    rewrite replace_match, !count_app, Hold. simpl.
    apply (IH (String.length rest)); [|done].
    rewrite Hrest, string_length_app. simpl. lia.
  - rewrite replace_no_match by done. simpl. f_equal.
    apply (IH (String.length s)); [simpl; lia|done].
Qed.

Lemma split_length (c : ascii) (s : string) :
  length (PyStr.split c s) = S (PyStr.count c s).
Proof.
  induction s as [|a s IH]; simpl; [done|].
  destruct (Ascii.eqb a c); simpl; [by rewrite IH|].
  destruct (PyStr.split c s); simpl in *; [done|lia].
Qed.

(** The symbol of a key that contains the separator has an expiry
    component; a key that starts with [option:ASSET-] contains it. *)
Lemma symbol_has_expiry (key : string) :
  (0 < PyStr.count "-" key)%nat → is_Some (parts_of_key key !! 1%nat).
Proof.
  unfold parts_of_key, symbol_of_key. intros H.
  apply lookup_lt_is_Some. rewrite split_length, replace_count by done. lia.
Qed.

Lemma prefixed_key_has_separator (asset key : string) :
  PyStr.startswith ("option:" ++ asset ++ "-") key = true →
  (0 < PyStr.count "-" key)%nat.
Proof.
  intros H. destruct (startswith_app _ _ H) as [rest ->].
  rewrite !count_app. simpl. lia.
Qed.

(** *** One key of the scan *)

Section Scan.
Context {F : PyFloat}.

Lemma float_field_default (data : gmap string string) (k : string) :
  data !! k = None ∨ data !! k = Some "" →
  float_field data k = Some float_zero.
Proof. unfold float_field. by intros [-> | ->]. Qed.

Lemma float_field_parsed (data : gmap string string) (k s : string) :
  data !! k = Some s → s ≠ "" → float_field data k = float_of_str s.
Proof. unfold float_field. intros -> Hs. by destruct s. Qed.

Lemma format_row_Some sym parts data row :
  format_row sym parts data = Some row →
  symbol row = sym
  ∧ expiry row = default "N/A" (parts !! 1%nat)
  ∧ strike row = default "N/A" (parts !! 2%nat)
  ∧ type row = type_of_symbol sym
  ∧ Forall (fun kg => float_field data kg.1 = Some (kg.2 row)) numeric_fields.
Proof.
  unfold format_row. intros H. simplify_option_eq.
  repeat split; try done. repeat constructor; done.
Qed.

Lemma format_row_is_Some sym parts data :
  Forall (fun kg => is_Some (float_field data kg.1)) numeric_fields →
  is_Some (format_row sym parts data).
Proof.
  unfold numeric_fields, format_row. intros H.
  repeat match goal with
  | H : Forall _ (_ :: _) |- _ =>
      let Hx := fresh in
      apply Forall_cons in H as [[? Hx] H]; simpl in Hx; rewrite Hx; simpl
  end.
  by eexists.
Qed.

Lemma format_row_None sym parts data :
  Exists (fun kg => float_field data kg.1 = None) numeric_fields →
  format_row sym parts data = None.
Proof.
  intros Hex. destruct (format_row sym parts data) as [row|] eqn:Hrow; [|done].
  apply format_row_Some in Hrow as (_ & _ & _ & _ & Hall).
  apply Exists_exists in Hex as (kg & Hin & Hnone).
  rewrite Forall_forall in Hall. specialize (Hall kg Hin). congruence.
Qed.

(** What [loop_body] does with a key that has a non-empty hash. *)
Lemma loop_body_fetched r expiry option_type key data :
  HGETALL r key = Some data → data ≠ ∅ →
  loop_body r expiry option_type key
  = if expiry_rejects expiry (parts_of_key key) then None
    else if type_rejects option_type (symbol_of_key key) then None
    else format_row (symbol_of_key key) (parts_of_key key) data.
Proof.
  intros Hd Hne. unfold loop_body. rewrite Hd.
  by rewrite bool_decide_eq_false_2.
Qed.

(** A row of the result comes from a fetched key with a non-empty hash
    that neither filter rejected. *)
Lemma scanned_row r expiry option_type keys row :
  row ∈ scanned r expiry option_type keys →
  ∃ key data, key ∈ keys ∧ HGETALL r key = Some data
    ∧ expiry_rejects expiry (parts_of_key key) = false
    ∧ type_rejects option_type (symbol_of_key key) = false
    ∧ format_row (symbol_of_key key) (parts_of_key key) data = Some row.
Proof.
  unfold scanned. rewrite list_elem_of_omap. intros (key & Hin & Hbody).
  exists key. unfold loop_body in Hbody.
  destruct (HGETALL r key) as [data|]; [|done]. exists data.
  destruct (bool_decide (data = ∅)); [done|].
  fold (symbol_of_key key) in Hbody. fold (parts_of_key key) in Hbody.
  destruct (expiry_rejects _ _); [done|].
  destruct (type_rejects _ _); done.
Qed.

Lemma type_rejects_call symbol :
  type_rejects (Some "call") symbol = negb (ends_as_call symbol).
Proof.
  unfold type_rejects, ends_as_call. simpl.
  by rewrite orb_false_r, negb_orb.
Qed.

Lemma type_rejects_put symbol :
  type_rejects (Some "put") symbol = negb (ends_as_put symbol).
Proof. unfold type_rejects, ends_as_put. simpl. by rewrite negb_orb. Qed.

Lemma type_rejects_no_filter t symbol :
  no_filter t → type_rejects t symbol = false.
Proof. by intros [-> | [-> | ->]]. Qed.

Lemma expiry_rejects_no_filter e parts :
  no_filter e → expiry_rejects e parts = false.
Proof. by intros [-> | [-> | ->]]. Qed.

Lemma loop_body_type_filter r expiry key t t' :
  type_rejects t (symbol_of_key key) = type_rejects t' (symbol_of_key key) →
  loop_body r expiry t key = loop_body r expiry t' key.
Proof.
  intros H. unfold loop_body. fold (symbol_of_key key). by rewrite H.
Qed.

Lemma loop_body_expiry_filter r key e e' t :
  expiry_rejects e (parts_of_key key) = expiry_rejects e' (parts_of_key key) →
  loop_body r e t key = loop_body r e' t key.
Proof.
  intros H. unfold loop_body. fold (symbol_of_key key).
  fold (parts_of_key key). by rewrite H.
Qed.

Lemma scanned_ext r e t e' t' keys :
  (∀ key, loop_body r e t key = loop_body r e' t' key) →
  scanned r e t keys = scanned r e' t' keys.
Proof.
  intros H. unfold scanned. apply list_omap_ext.
  induction keys; constructor; auto.
Qed.

End Scan.

(** *** Filters *)

(** The filters as they stand against claim C1: the row of the symbol
    BTC-30JUN24-50000 is labelled "Put" and the symbol ends in no call
    marker, yet the put filter drops it; and an expiry filter that is the
    empty string filters nothing, so rows of expiry 30JUN24 and 27SEP24 are
    returned for it. *)
Lemma query_filters_counterexample :
  (type (F := IntFloat) <$>
     fst (get_options_data (store_of no_marker_db) "BTC" None None) = ["Put"]
   ∧ ends_as_call "BTC-30JUN24-50000" = false
   ∧ fst (get_options_data (F := IntFloat) (store_of no_marker_db) "BTC" None (Some "put"))
     = [])
  ∧ expiry (F := IntFloat) <$>
      fst (get_options_data (store_of sample_db) "BTC" (Some "") (Some "call"))
    = ["30JUN24"; "27SEP24"; "30JUN24"; "30JUN24"].
Proof. vm_compute. by repeat split. Qed.

(** C1, amended.  When the expiry filter [E] is a non-empty string other
    than "all" and the keys of the reply contain the separator "-" (as the
    keys that start with [option:ASSET-] do), every returned row has expiry
    [E].  Under the type filter "call" a key yields
    the row it yields without a type filter if its symbol ends in "-C" or
    "-C-USDT", and no row otherwise; under "put", likewise with "-P" and
    "-P-USDT".  A filter that is absent, empty or "all" changes nothing. *)
Theorem query_filters (F : PyFloat) (r : Redis) (asset E : string)
    (option_type : option string) :
  E ≠ "" → E ≠ "all" →
  Forall (fun key => (0 < PyStr.count "-" key)%nat)
         (KEYS r ("option:" ++ asset ++ "-*")) →
  (∀ row, row ∈ fst (get_options_data r asset (Some E) option_type) →
          expiry row = E)
  ∧ (∀ e key, loop_body r e (Some "call") key
              = if ends_as_call (symbol_of_key key)
                then loop_body r e None key else None)
  ∧ (∀ e key, loop_body r e (Some "put") key
              = if ends_as_put (symbol_of_key key)
                then loop_body r e None key else None)
  ∧ (∀ e t, no_filter t →
            get_options_data r asset e t = get_options_data r asset e None)
  ∧ (∀ e t, no_filter e →
            get_options_data r asset e t = get_options_data r asset None t).
Proof.
  intros HE Hall Hkeys. repeat split.
  - intros row. rewrite get_options_data_spec. simpl.
    rewrite sort_by_volume_perm. intros Hrow.
    apply scanned_row in Hrow as (key & data & Hin & _ & Hexp & _ & Hrow).
    apply format_row_Some in Hrow as (_ & -> & _).
    apply subseteq_take in Hin. rewrite Forall_forall in Hkeys.
    destruct (symbol_has_expiry key (Hkeys key Hin)) as [p Hp].
    rewrite Hp. simpl. unfold expiry_rejects in Hexp. rewrite Hp in Hexp.
    destruct (String.eqb_spec E "all") as [|_]; [done|].
    destruct (String.eqb_spec p E) as [|_]; [done|].
    destruct E; done.
  - intros e key. unfold loop_body. fold (symbol_of_key key).
    rewrite type_rejects_call.
    destruct (HGETALL r key) as [data|]; [|by destruct (ends_as_call _)].
    destruct (bool_decide _); [by destruct (ends_as_call _)|].
    destruct (expiry_rejects _ _); by destruct (ends_as_call _).
  - intros e key. unfold loop_body. fold (symbol_of_key key).
    rewrite type_rejects_put.
    destruct (HGETALL r key) as [data|]; [|by destruct (ends_as_put _)].
    destruct (bool_decide _); [by destruct (ends_as_put _)|].
    destruct (expiry_rejects _ _); by destruct (ends_as_put _).
  - intros e t Ht. rewrite !get_options_data_spec. simpl. f_equal. f_equal.
    apply scanned_ext. intros key. apply loop_body_type_filter.
    by rewrite type_rejects_no_filter.
  - intros e t He. rewrite !get_options_data_spec. simpl. f_equal. f_equal.
    apply scanned_ext. intros key. apply loop_body_expiry_filter.
    by rewrite expiry_rejects_no_filter.
Qed.

Lemma query_filters_witness :
  let r := store_of sample_db in
  (∀ row, row ∈ fst (get_options_data (F := IntFloat) r "BTC" (Some "30JUN24") (Some "call")) →
          expiry row = "30JUN24")
  ∧ (∀ e key, loop_body (F := IntFloat) r e (Some "call") key
              = if ends_as_call (symbol_of_key key)
                then loop_body r e None key else None)
  ∧ (∀ e key, loop_body (F := IntFloat) r e (Some "put") key
              = if ends_as_put (symbol_of_key key)
                then loop_body r e None key else None)
  ∧ (∀ e t, no_filter t →
            get_options_data (F := IntFloat) r "BTC" e t
            = get_options_data r "BTC" e None)
  ∧ (∀ e t, no_filter e →
            get_options_data (F := IntFloat) r "BTC" e t
            = get_options_data r "BTC" None t).
Proof.
  apply (query_filters IntFloat (store_of sample_db) "BTC" "30JUN24" (Some "call")).
  - discriminate.
  - discriminate.
  - repeat constructor; apply (prefixed_key_has_separator "BTC"); reflexivity.
Defined.

(** *** Numeric fields *)

(** The numeric fields as they stand against claim C5: the only key of the
    store has a non-empty hash whose volume is the string "abc"; no filter
    is set; the result has no row for it. *)
Lemma numeric_fields_counterexample :
  let r := store_of bad_volume_db in
  KEYS r "option:BTC-*" = ["option:BTC-30JUN24-50000-C"]
  ∧ HGETALL r "option:BTC-30JUN24-50000-C" = Some (quote "1200" "abc")
  ∧ quote "1200" "abc" !! "volume_24h" = Some "abc"
  ∧ float_of_str (PyFloat := IntFloat) "abc" = None
  ∧ fst (get_options_data (F := IntFloat) r "BTC" None None) = [].
Proof. vm_compute. by repeat split. Qed.

(** C5, amended.  Take a fetched key with a non-empty hash that the filters
    let through.  If every numeric field of the hash is missing, empty, or a
    string [float] accepts, the result has a row for the key, and in that row
    every entry whose field is missing or empty is zero.  If some numeric
    field is a non-empty string [float] rejects, the iteration ends without
    a row.  In both cases the call returns a list. *)
Theorem numeric_fields_default_zero (F : PyFloat) (r : Redis) (asset : string)
    (expiry option_type : option string) (key : string)
    (data : gmap string string) :
  key ∈ take SCAN_CAP (KEYS r ("option:" ++ asset ++ "-*")) →
  HGETALL r key = Some data →
  data ≠ ∅ →
  expiry_rejects expiry (parts_of_key key) = false →
  type_rejects option_type (symbol_of_key key) = false →
  ((∀ k s, k ∈ numeric_fields.*1 → data !! k = Some s → s ≠ "" →
           is_Some (float_of_str s)) →
   ∃ row, loop_body r expiry option_type key = Some row
     ∧ row ∈ fst (get_options_data r asset expiry option_type)
     ∧ symbol row = symbol_of_key key
     ∧ ∀ k get, (k, get) ∈ numeric_fields →
         data !! k = None ∨ data !! k = Some "" → get row = float_zero)
  ∧ (∀ k s, k ∈ numeric_fields.*1 → data !! k = Some s → s ≠ "" →
            float_of_str s = None →
            loop_body r expiry option_type key = None).
Proof.
  intros Hin Hd Hne Hexp Htyp.
  pose proof (loop_body_fetched r expiry option_type key data Hd Hne) as Hbody.
  rewrite Hexp, Htyp in Hbody. split.
  - intros Hok.
    destruct (format_row_is_Some (symbol_of_key key) (parts_of_key key) data)
      as [row Hrow].
    { apply Forall_forall. intros [k get] Hk. simpl.
      destruct (data !! k) as [s|] eqn:Hs.
      - destruct (decide (s = "")) as [->|Hs'].
        + rewrite float_field_default; eauto.
        + rewrite (float_field_parsed data k s) by done.
          apply (Hok k s); [|done|done].
          apply list_elem_of_fmap. by exists (k, get).
      - rewrite float_field_default; eauto. }
    exists row. rewrite Hbody. split; [done|]. split; [|split].
    + rewrite get_options_data_spec. simpl. rewrite sort_by_volume_perm.
      unfold scanned. apply list_elem_of_omap. exists key. split; [done|].
      by rewrite Hbody.
    + by apply format_row_Some in Hrow as (-> & _).
    + intros k get Hk Hmiss.
      apply format_row_Some in Hrow as (_ & _ & _ & _ & Hall).
      rewrite Forall_forall in Hall. specialize (Hall (k, get) Hk). simpl in Hall.
      rewrite float_field_default in Hall by done. congruence.
  - intros k s Hk Hs Hs' Hnone. rewrite Hbody. apply format_row_None.
    apply list_elem_of_fmap in Hk as ([k' get] & -> & Hk).
    apply Exists_exists. exists (k', get). split; [done|]. simpl.
    by rewrite (float_field_parsed data k' s).
Qed.

Lemma numeric_fields_default_zero_witness :
  let r := store_of sample_db in
  let key := "option:BTC-30JUN24-50000-C" in
  let data := quote "1200" "10" in
  ((∀ k s, k ∈ (numeric_fields (F := IntFloat)).*1 → data !! k = Some s → s ≠ "" →
           is_Some (float_of_str (PyFloat := IntFloat) s)) →
   ∃ row, loop_body (F := IntFloat) r None None key = Some row
     ∧ row ∈ fst (get_options_data r "BTC" None None)
     ∧ symbol row = symbol_of_key key
     ∧ ∀ (k : string) get, (k, get) ∈ numeric_fields (F := IntFloat) →
         data !! k = None ∨ data !! k = Some "" →
         get row = float_zero (PyFloat := IntFloat))
  ∧ (∀ k s, k ∈ (numeric_fields (F := IntFloat)).*1 → data !! k = Some s → s ≠ "" →
            float_of_str (PyFloat := IntFloat) s = None →
            loop_body (F := IntFloat) r None None key = None).
Proof.
  apply (numeric_fields_default_zero IntFloat (store_of sample_db) "BTC"
           None None "option:BTC-30JUN24-50000-C" (quote "1200" "10")).
  - vm_compute. left.
  - vm_compute. reflexivity.
  - intros H. apply (f_equal (fun m => m !! "last_price")) in H.
    vm_compute in H. discriminate.
  - reflexivity.
  - reflexivity.
Defined.

Example sample_row_defaults :
  (fun x => (symbol x, last_price x, volume_24h x, delta x, iv x)) <$>
    loop_body (F := IntFloat) (store_of sample_db) None None
      "option:BTC-30JUN24-50000-C"
  = Some ("BTC-30JUN24-50000-C", 1200%Z, 10%Z, 0%Z, 0%Z).
Proof. vm_compute. reflexivity. Qed.

(** * Further properties of the registry *)

Lemma upper_ascii_idempotent (c : ascii) :
  PyStr.upper_ascii (PyStr.upper_ascii c) = PyStr.upper_ascii c.
Proof.
  destruct c as [[] [] [] [] [] [] [] []]; vm_compute; reflexivity.
Qed.

Lemma upper_idempotent (s : string) : PyStr.upper (PyStr.upper s) = PyStr.upper s.
Proof.
  induction s as [|c s IH]; simpl; [done|].
  by rewrite upper_ascii_idempotent, IH.
Qed.


(** *** What [add_asset] does *)

(** [add_asset] succeeds exactly when the upper-cased symbol is not a key
    of the registry [get_assets] returns and the request finds an
    instrument; this holds in every state, with or without a document. *)
Theorem add_asset_success_iff
    (http : string → HttpOutcome) (now symbol nm : string) (w : World) :
  (∃ m, fst (add_asset http now symbol nm w) = Success m)
  ↔ ((PyStr.upper symbol ∉ dom (fst (getAll w)))
     ∧ found_options (http (PyStr.upper symbol)) = true).
Proof.
  rewrite <- has_key_not_dom. run_registry.
  destruct (doc w) as [d|]; simpl.
  - destruct (has_key (PyStr.upper symbol) d); simpl.
    + split; [by intros [m Hm] | by intros [? _]].
    + destruct (found_options _); simpl.
      * split; eauto.
      * split; [by intros [m Hm] | by intros [_ ?]].
  - destruct (has_key (PyStr.upper symbol) (DEFAULT_ASSETS w)); simpl.
    + split; [by intros [m Hm] | by intros [? _]].
    + destruct (found_options _); simpl.
      * split; eauto.
      * split; [by intros [m Hm] | by intros [_ ?]].
Qed.



(** *** Toggling *)





(** *** Adding and removing *)





(** *** Steps over a stored registry *)

(** With a document in the store, an operation leaves the class defaults
    alone, and the document it leaves is the old one, or the old one with a
    fresh upper-cased key, with one entry toggled, or without a key that is
    not a default. *)
Lemma run_op_stored (o : Op) (w : World) (d : gmap string Asset) :
  doc w = Some d →
  DEFAULT_ASSETS (run_op o w) = DEFAULT_ASSETS w
  ∧ ∃ d', doc (run_op o w) = Some d'
      ∧ (d' = d
         ∨ (∃ s a, d !! PyStr.upper s = None ∧ d' = <[PyStr.upper s := a]> d)
         ∨ (∃ s, d' = alter toggled s d)
         ∨ (∃ s, (s ∉ dom (DEFAULT_ASSETS w)) ∧ d' = delete s d)).
Proof.
  intros Hd. destruct o as [|http now symbol nm|symbol|symbol]; simpl.
  - rewrite (getAll_stored w d Hd). eauto.
  - destruct (has_key (PyStr.upper symbol) d) eqn:Hk.
    + rewrite (add_asset_exists w d Hd _ _ _ _ Hk). eauto.
    + destruct (found_options (http (PyStr.upper symbol))) eqn:Hf.
      * rewrite (add_asset_success w d Hd _ _ _ _ Hk Hf). simpl.
        split; [done|]. eexists. split; [done|]. right. left.
        exists symbol. eexists. split; [|done].
        apply has_key_not_dom in Hk. by apply not_elem_of_dom.
      * rewrite (add_asset_no_options w d Hd _ _ _ _ Hk Hf). simpl. eauto.
  - destruct (has_key symbol d) eqn:Hk.
    + rewrite (toggle_asset_known w d Hd _ Hk). simpl.
      split; [done|]. eexists. split; [done|]. right. right. left. eauto.
    + rewrite (toggle_asset_unknown w d Hd _ Hk). eauto.
  - destruct (has_key symbol d && negb (has_key symbol (DEFAULT_ASSETS w))) eqn:Hk.
    + apply andb_true_iff in Hk as [Hk Hn]. apply negb_true_iff in Hn.
      rewrite (remove_asset_done w d Hd _ Hk Hn). simpl.
      split; [done|]. eexists. split; [done|]. right. right. right.
      exists symbol. split; [|done]. by apply has_key_not_dom.
    + rewrite (remove_asset_refused w d Hd symbol); [eauto|].
      apply andb_false_iff in Hk as [Hk|Hk]; [by left|right].
      by apply negb_false_iff in Hk.
Qed.


(** Keys stay upper-cased. *)
Lemma reachable_upper_keys (w0 w : World) (d0 : gmap string Asset) :
  doc w0 = Some d0 →
  (∀ k, k ∈ dom d0 → PyStr.upper k = k) →
  reachable w0 w →
  ∃ d, doc w = Some d ∧ ∀ k, k ∈ dom d → PyStr.upper k = k.
Proof.
  intros Hd0 Hup Hr. induction Hr as [|w o Hr (d & Hd & Hu)]; [eauto|].
  destruct (run_op_stored o w d Hd) as [_ (d' & Hd' & Hcases)].
  exists d'. split; [done|].
  destruct Hcases as [->|[(s & a & _ & ->)|[(s & ->)|(s & _ & ->)]]].
  - done.
  - intros k. rewrite dom_insert_L, elem_of_union, elem_of_singleton.
    intros [->|Hk]; [apply upper_idempotent|auto].
  - intros k. rewrite dom_alter_L. auto.
  - intros k. rewrite dom_delete_L, elem_of_difference. intros [Hk _]. auto.
Qed.

(** In every state reached from the bootstrapped one, every key of the
    registry is its own upper-cased form, so [toggle_asset] and
    [remove_asset] return [False] and change nothing for any symbol that
    has a lower-case letter. *)
Theorem registry_keys_upper_case (w : World) :
  reachable bootstrapped w →
  ∃ d, doc w = Some d
    ∧ (∀ k, k ∈ dom d → PyStr.upper k = k)
    ∧ ∀ symbol, PyStr.upper symbol ≠ symbol →
        toggle_asset symbol w = (false, w)
        ∧ remove_asset symbol w = (false, w).
Proof.
  intros Hr.
  destruct (reachable_upper_keys bootstrapped w SEED_ASSETS) as (d & Hd & Hu);
    [done| |done|].
  { intros k. rewrite dom_SEED_ASSETS. intros Hk.
    assert (k = "BTC" ∨ k = "ETH" ∨ k = "SOL") as Hcases by set_solver.
    destruct Hcases as [-> | [-> | ->]]; reflexivity. }
  exists d. split; [done|]. split; [done|]. intros symbol Hne.
  assert (has_key symbol d = false) as Hk.
  { apply has_key_not_dom. intros Hin. by apply Hne, Hu. }
  split.
  - by apply (toggle_asset_unknown w d Hd).
  - apply (remove_asset_refused w d Hd). by left.
Qed.

Lemma registry_keys_upper_case_witness :
  ∃ d, doc with_xrp = Some d
    ∧ (∀ k, k ∈ dom d → PyStr.upper k = k)
    ∧ ∀ symbol, PyStr.upper symbol ≠ symbol →
        toggle_asset symbol with_xrp = (false, with_xrp)
        ∧ remove_asset symbol with_xrp = (false, with_xrp).
Proof.
  apply (registry_keys_upper_case with_xrp).
  unfold with_xrp. apply reach_step. apply reach_here.
Defined.

(** *** The first call of a process *)




(** *** Requests to the endpoint *)

(** In every state, [get_assets], [toggle_asset] and [remove_asset] send
    no request to the endpoint; [add_asset] sends none when the symbol
    exists and otherwise exactly one, for the upper-cased symbol. *)
Theorem probe_requests (symbol : string) (w : World) :
  probes (trace (snd (getAll w))) = probes (trace w)
  ∧ probes (trace (snd (toggle_asset symbol w))) = probes (trace w)
  ∧ probes (trace (snd (remove_asset symbol w))) = probes (trace w)
  ∧ ∀ http now nm,
      probes (trace (snd (add_asset http now symbol nm w)))
      = if has_key (PyStr.upper symbol) (fst (getAll w))
        then probes (trace w)
        else PyStr.upper symbol :: probes (trace w).
Proof.
  run_registry. destruct (doc w) as [d|]; simpl; repeat split;
    try (intros http now nm);
    repeat match goal with
      | |- context [has_key ?k ?m] => destruct (has_key k m); simpl
      | |- context [found_options ?c] => destruct (found_options c); simpl
      end; done.
Qed.

(** * The routes *)


(** [POST /api/assets/add] without a symbol, or with an empty one, answers
    400 "Symbol required" and touches neither the store nor the endpoint,
    whatever the state: not even the bootstrap write happens. *)
Theorem route_add_requires_symbol
    (http : string → HttpOutcome) (now : string)
    (data : gmap string string) (w : World) :
  data !! "symbol" = None ∨ data !! "symbol" = Some "" →
  route_add_asset http now data w = ((JError "Symbol required", 400), w).
Proof. unfold route_add_asset. by intros [-> | ->]. Qed.

Lemma route_add_requires_symbol_witness :
  route_add_asset has_options "2024-06-01T00:00:00"
    (<["name" := "Ripple"]> ∅) (process_start None)
  = ((JError "Symbol required", 400), process_start None).
Proof.
  apply (route_add_requires_symbol has_options "2024-06-01T00:00:00"
           (<["name" := "Ripple"]> ∅) (process_start None)).
  left. reflexivity.
Defined.



(** For a symbol that is not a key of the registry, the toggle route
    answers 200 with [success] false, and the remove route answers 400 with
    the error "Cannot remove default asset"; the stored registry is the one
    that was there. *)
Theorem routes_on_unknown_symbol (symbol : string) (w : World)
    (d : gmap string Asset) :
  doc w = Some d →
  symbol ∉ dom d →
  route_toggle_asset symbol w = ((JSuccess false, 200), w)
  ∧ route_remove_asset symbol w
    = ((JError "Cannot remove default asset", 400), w).
Proof.
  intros Hd Hk. apply has_key_not_dom in Hk.
  unfold route_toggle_asset, route_remove_asset, bind.
  rewrite (toggle_asset_unknown w d Hd symbol Hk).
  rewrite (remove_asset_refused w d Hd symbol) by by left.
  done.
Qed.

Lemma routes_on_unknown_symbol_witness :
  route_toggle_asset "xrp" with_xrp = ((JSuccess false, 200), with_xrp)
  ∧ route_remove_asset "xrp" with_xrp
    = ((JError "Cannot remove default asset", 400), with_xrp).
Proof.
  apply (routes_on_unknown_symbol "xrp" with_xrp
           (<["XRP" := mkAsset "Ripple" true 4 (Some "2024-06-01T00:00:00")]>
              SEED_ASSETS)).
  - reflexivity.
  - apply not_elem_of_dom. reflexivity.
Defined.

(** The remove route answers 200 exactly when the symbol is a key of the
    stored registry and not a key of the class defaults. *)
Theorem route_remove_status (symbol : string) (w : World) (d : gmap string Asset) :
  doc w = Some d →
  snd (fst (route_remove_asset symbol w)) = 200
  ↔ (symbol ∈ dom d ∧ symbol ∉ dom (DEFAULT_ASSETS w)).
Proof.
  intros Hd. rewrite <- has_key_dom, <- has_key_not_dom.
  unfold route_remove_asset, bind.
  destruct (has_key symbol d) eqn:Hk;
    [destruct (has_key symbol (DEFAULT_ASSETS w)) eqn:Hn|].
  - rewrite (remove_asset_refused w d Hd symbol) by by right.
    simpl. split; [done|]. by intros [_ ?].
  - by rewrite (remove_asset_done w d Hd symbol Hk Hn).
  - rewrite (remove_asset_refused w d Hd symbol) by by left.
    simpl. split; [done|]. by intros [? _].
Qed.

Lemma route_remove_status_witness :
  snd (fst (route_remove_asset "XRP" with_xrp)) = 200
  ↔ ("XRP" ∈ dom (<["XRP" := mkAsset "Ripple" true 4 (Some "2024-06-01T00:00:00")]>
                     SEED_ASSETS)
     ∧ "XRP" ∉ dom (DEFAULT_ASSETS with_xrp)).
Proof.
  apply (route_remove_status "XRP" with_xrp).
  reflexivity.
Defined.

(** * Further properties of the options view *)

Section Filtering.
Context {F : PyFloat}.






End Filtering.


(** Every row returned comes from one of the first 500 keys: its symbol is
    the key without "option:", its expiry and strike are the second and
    third component of the symbol ("N/A" when there is none), its label is
    that of the symbol, and each numeric entry is what the hash of that key
    gives for its field. *)
Theorem query_rows_come_from_keys (F : PyFloat) (r : Redis) (asset : string)
    (e t : option string) (row : Row) :
  row ∈ fst (get_options_data r asset e t) →
  ∃ key data,
    key ∈ take 500 (KEYS r ("option:" ++ asset ++ "-*"))
    ∧ HGETALL r key = Some data
    ∧ symbol row = PyStr.replace "option:" "" key
    ∧ expiry row = default "N/A" (PyStr.split "-" (symbol row) !! 1%nat)
    ∧ strike row = default "N/A" (PyStr.split "-" (symbol row) !! 2%nat)
    ∧ type row = (if PyStr.contains "-C" (symbol row) then "Call" else "Put")
    ∧ ∀ k get, (k, get) ∈ numeric_fields →
        float_field data k = Some (get row).
Proof.
  rewrite get_options_data_spec. simpl. rewrite sort_by_volume_perm.
  intros Hrow.
  apply scanned_row in Hrow as (key & data & Hin & Hd & _ & _ & Hrow).
  apply format_row_Some in Hrow as (Hsym & Hexp & Hstr & Hty & Hall).
  exists key, data. rewrite Hsym. repeat split; try done.
  intros k get Hk. rewrite Forall_forall in Hall. apply (Hall (k, get) Hk).
Qed.

Lemma query_rows_come_from_keys_witness :
  let r := store_of sample_db in
  let row := mkRow (F := IntFloat) "BTC-30JUN24-60000-C" "30JUN24" "60000" "Call"
               800%Z 0%Z 50%Z 0%Z 0%Z 0%Z 0%Z 0%Z 0%Z 0%Z 0%Z in
  ∃ key data,
    key ∈ take 500 (KEYS r ("option:" ++ "BTC" ++ "-*"))
    ∧ HGETALL r key = Some data
    ∧ symbol row = PyStr.replace "option:" "" key
    ∧ expiry row = default "N/A" (PyStr.split "-" (symbol row) !! 1%nat)
    ∧ strike row = default "N/A" (PyStr.split "-" (symbol row) !! 2%nat)
    ∧ type row = (if PyStr.contains "-C" (symbol row) then "Call" else "Put")
    ∧ ∀ (k : string) get, (k, get) ∈ numeric_fields (F := IntFloat) →
        float_field data k = Some (get row).
Proof.
  apply (query_rows_come_from_keys IntFloat (store_of sample_db) "BTC"
           (Some "30JUN24") (Some "call")).
  vm_compute. left.
Defined.

(** The options route treats a missing query argument as no filter: it
    returns what [get_options_data] returns for the arguments as given. *)
Theorem route_get_options_defaults (F : PyFloat) (r : Redis) (asset : string)
    (args : gmap string string) :
  route_get_options r asset args
  = fst (get_options_data r asset (args !! "expiry") (args !! "type")).
Proof.
  unfold route_get_options. rewrite !get_options_data_spec. simpl.
  f_equal. apply scanned_ext. intros key.
  transitivity (loop_body r (args !! "expiry")
                  (Some (default "all" (args !! "type"))) key).
  - apply loop_body_expiry_filter.
    destruct (args !! "expiry"); [done|].
    by rewrite !expiry_rejects_no_filter by (unfold no_filter; auto).
  - apply loop_body_type_filter.
    destruct (args !! "type"); [done|].
    by rewrite !type_rejects_no_filter by (unfold no_filter; auto).
Qed.

(** *** Symbols and their components *)

Lemma split_no_sep (c : ascii) (s : string) :
  PyStr.count c s = 0%nat → PyStr.split c s = [s].
Proof.
  induction s as [|a s IH]; simpl; [done|].
  destruct (Ascii.eqb a c); [done|]. intros H. by rewrite IH.
Qed.

Lemma split_app_sep (c : ascii) (a b : string) :
  PyStr.count c a = 0%nat →
  PyStr.split c (a ++ String c b) = a :: PyStr.split c b.
Proof.
  induction a as [|x a IH]; simpl.
  - intros _. by rewrite Ascii.eqb_refl.
  - destruct (Ascii.eqb x c); [done|]. intros H. by rewrite IH.
Qed.

(** Splitting undoes joining when no part contains the separator. *)
Lemma split_join (c : ascii) (parts : list string) :
  parts ≠ [] →
  Forall (fun p => PyStr.count c p = 0%nat) parts →
  PyStr.split c (join (String c "") parts) = parts.
Proof.
  induction parts as [|p parts IH]; [done|]. intros _ Hall.
  apply Forall_cons in Hall as [Hp Hall].
  destruct parts as [|q parts].
  - simpl. by apply split_no_sep.
  - change (join (String c "") (p :: q :: parts))
      with (p ++ String c (join (String c "") (q :: parts))).
    rewrite split_app_sep by done. f_equal. by apply IH.
Qed.

(** Where the string to delete does not occur, [replace] changes nothing. *)
Lemma replace_absent (old new s : string) :
  PyStr.contains old s = false → PyStr.replace old new s = s.
Proof.
  induction s as [|c s IH]; [done|]. rewrite contains_cons.
  intros H. apply orb_false_iff in H as [Hm Hc].
  rewrite replace_no_match by done. by rewrite IH.
Qed.

Lemma symbol_of_prefixed_key (sym : string) :
  PyStr.contains "option:" sym = false →
  symbol_of_key ("option:" ++ sym) = sym.
Proof.
  intros H. unfold symbol_of_key.
  rewrite (replace_match "o" "ption:" "" sym). simpl.
  by apply replace_absent.
Qed.

(** The row of the key [option:P0-P1-...-Pn], where no [Pi] contains "-"
    and "option:" does not occur behind the prefix, has the symbol
    [P0-P1-...-Pn], the expiry [P1] and the strike [P2]; a component that
    is not there reads "N/A". *)
Theorem row_components (F : PyFloat) (r : Redis) (e t : option string)
    (parts : list string) (row : Row) :
  parts ≠ [] →
  Forall (fun p => PyStr.count "-" p = 0%nat) parts →
  PyStr.contains "option:" (join "-" parts) = false →
  loop_body r e t ("option:" ++ join "-" parts) = Some row →
  symbol row = join "-" parts
  ∧ expiry row = default "N/A" (parts !! 1%nat)
  ∧ strike row = default "N/A" (parts !! 2%nat).
Proof.
  intros Hne Hall Hopt Hrow.
  assert (row ∈ scanned r e t ["option:" ++ join "-" parts]) as Hin.
  { unfold scanned. simpl. rewrite Hrow. left. }
  apply scanned_row in Hin as (key & data & Hkey & _ & _ & _ & Hfmt).
  apply list_elem_of_singleton in Hkey as ->.
  apply format_row_Some in Hfmt as (Hsym & Hexp & Hstr & _).
  unfold parts_of_key in *. rewrite symbol_of_prefixed_key in * by done.
  rewrite split_join in * by done. done.
Qed.

Lemma row_components_witness :
  let row := mkRow (F := IntFloat) "BTC-30JUN24-60000-C" "30JUN24" "60000" "Call"
               800%Z 0%Z 50%Z 0%Z 0%Z 0%Z 0%Z 0%Z 0%Z 0%Z 0%Z in
  let parts := ["BTC"; "30JUN24"; "60000"; "C"] in
  symbol row = join "-" parts
  ∧ expiry row = default "N/A" (parts !! 1%nat)
  ∧ strike row = default "N/A" (parts !! 2%nat).
Proof.
  apply (row_components IntFloat (store_of sample_db) None None
           ["BTC"; "30JUN24"; "60000"; "C"]).
  - discriminate.
  - repeat constructor.
  - reflexivity.
  - vm_compute. reflexivity.
Defined.

Example row_of_short_symbol :
  (fun x => (symbol x, expiry x, strike x)) <$>
    loop_body (F := IntFloat)
      (mkRedis (fun _ => []) (fun _ => Some (quote "1" "2")))
      None None "option:BTC-30JUN24"
  = Some ("BTC-30JUN24", "30JUN24", "N/A").
Proof. vm_compute. reflexivity. Qed.

(** * The expiries of an asset *)

Lemma compare_Lt_trans (a b c : string) :
  String.compare a b = Lt → String.compare b c = Lt → String.compare a c = Lt.
Proof.
  revert b c. induction a as [|x a IH]; intros [|y b] [|z c]; simpl; try done.
  destruct (Ascii.compare x y) eqn:Hxy; [|intros _|done].
  - apply Ascii.compare_eq_iff in Hxy as ->.
    destruct (Ascii.compare y z); [apply IH|done|done].
  - destruct (Ascii.compare y z) eqn:Hyz; [|intros _|done].
    + apply Ascii.compare_eq_iff in Hyz as <-. by rewrite Hxy.
    + unfold Ascii.compare in *. rewrite N.compare_lt_iff in *.
      assert (N_of_ascii x < N_of_ascii z)%N as H by lia.
      apply N.compare_lt_iff in H. by rewrite H.
Qed.

Lemma leb_cases (a b : string) :
  String.leb a b = true ↔ a = b ∨ String.ltb a b = true.
Proof.
  unfold String.leb, String.ltb.
  destruct (String.compare a b) eqn:Hc; split; try done; eauto.
  - intros _. left. by apply String.compare_eq_iff.
  - intros [->|]; [|done].
    assert (String.compare b b = Eq) as Hb; [|congruence].
    clear Hc. induction b as [|x b IH]; simpl; [done|].
    unfold Ascii.compare. by rewrite N.compare_refl.
Qed.

Lemma ltb_trans (a b c : string) :
  String.ltb a b = true → String.ltb b c = true → String.ltb a c = true.
Proof.
  unfold String.ltb. intros Hab Hbc.
  destruct (String.compare a b) eqn:H1; try done.
  destruct (String.compare b c) eqn:H2; try done.
  by rewrite (compare_Lt_trans a b c).
Qed.

Lemma leb_trans (a b c : string) :
  String.leb a b = true → String.leb b c = true → String.leb a c = true.
Proof.
  rewrite !leb_cases. intros [->|Hab] [->|Hbc]; eauto using ltb_trans.
Qed.

Lemma insert_sorted_perm (x : string) (l : list string) :
  insert_sorted x l ≡ₚ x :: l.
Proof.
  induction l as [|y l IH]; simpl; [done|].
  destruct (String.leb x y); [done|]. rewrite IH. apply Permutation_swap.
Qed.

Lemma sorted_perm (l : list string) : sorted l ≡ₚ l.
Proof.
  induction l as [|x l IH]; simpl; [done|].
  by rewrite insert_sorted_perm, IH.
Qed.

Lemma insert_sorted_sorted (x : string) (l : list string) :
  StronglySorted (fun a b => String.leb a b = true) l →
  StronglySorted (fun a b => String.leb a b = true) (insert_sorted x l).
Proof.
  induction l as [|y l IH]; simpl; intros Hs.
  - repeat constructor.
  - apply StronglySorted_cons in Hs as [Hy Hl].
    destruct (String.leb x y) eqn:Hle.
    + apply StronglySorted_cons. split; [|by apply StronglySorted_cons].
      constructor; [done|]. eapply Forall_impl; [exact Hy|].
      intros z Hz. by apply (leb_trans x y z).
    + apply StronglySorted_cons. split; [|auto].
      rewrite insert_sorted_perm. constructor; [|done].
      destruct (String.leb_total x y); congruence.
Qed.

Lemma sorted_sorted (l : list string) :
  StronglySorted (fun a b => String.leb a b = true) (sorted l).
Proof.
  induction l as [|x l IH]; simpl; [constructor|].
  by apply insert_sorted_sorted.
Qed.

(** A list without repetition is sorted strictly. *)
Lemma sorted_strict (l : list string) :
  NoDup l → StronglySorted (fun a b => String.ltb a b = true) (sorted l).
Proof.
  intros Hnd. rewrite <- sorted_perm in Hnd.
  pose proof (sorted_sorted l) as Hs.
  induction (sorted l) as [|x l' IH]; [constructor|].
  apply StronglySorted_cons in Hs as [Hx Hs].
  apply NoDup_cons in Hnd as [Hnx Hnd].
  apply StronglySorted_cons. split; [|auto].
  rewrite Forall_forall in *. intros y Hy.
  destruct (proj1 (leb_cases x y) (Hx y Hy)) as [->|]; done.
Qed.

Lemma expiries_loop_spec (keys : list string) (acc : gset string) (e : string) :
  e ∈ expiries_loop keys acc
  ↔ e ∈ acc ∨ ∃ key, key ∈ keys ∧ parts_of_key key !! 1%nat = Some e.
Proof.
  revert acc. induction keys as [|key keys IH]; intros acc; simpl.
  - split; [auto|]. intros [?|(key & Hk & _)]; [done|]. by apply elem_of_nil in Hk.
  - fold (symbol_of_key key). fold (parts_of_key key).
    destruct (parts_of_key key !! 1%nat) as [p|] eqn:Hp; rewrite IH.
    + rewrite elem_of_union, elem_of_singleton. split.
      * intros [[->|?]|(k & Hk & He)]; [right|by left|right].
        -- exists key. split; [left|done].
        -- exists k. split; [by right|done].
      * intros [?|(k & Hk & He)]; [left; by right|].
        apply elem_of_cons in Hk as [->|Hk].
        -- left. left. congruence.
        -- right. eauto.
    + split.
      * intros [?|(k & Hk & He)]; [by left|right].
        exists k. split; [by right|done].
      * intros [?|(k & Hk & He)]; [by left|].
        apply elem_of_cons in Hk as [->|Hk]; [congruence|]. right. eauto.
Qed.

Lemma expiry_of_key_is_listed (r : Redis) (asset e : string) :
  (∃ key, key ∈ KEYS r ("option:" ++ asset ++ "-*")
        ∧ parts_of_key key !! 1%nat = Some e) →
  e ∈ get_expiries r asset.
Proof.
  intros H. unfold get_expiries. rewrite sorted_perm, elem_of_elements.
  rewrite expiries_loop_spec. by right.
Qed.

(** [get_expiries] lists exactly the second components of the symbols of
    the keys in the reply, of every key of the reply: there is no cap and
    no look at the hashes. *)
Theorem get_expiries_members (r : Redis) (asset e : string) :
  e ∈ get_expiries r asset
  ↔ ∃ key, key ∈ KEYS r ("option:" ++ asset ++ "-*")
         ∧ PyStr.split "-" (PyStr.replace "option:" "" key) !! 1%nat = Some e.
Proof.
  unfold get_expiries. rewrite sorted_perm, elem_of_elements.
  rewrite expiries_loop_spec. split; [|by right].
  intros [H|H]; [|done]. by apply elem_of_empty in H.
Qed.

(** The list [get_expiries] returns is in strictly ascending order of
    strings: each expiry occurs once. *)
Theorem get_expiries_strictly_sorted (r : Redis) (asset : string) :
  StronglySorted (fun a b => String.ltb a b = true) (get_expiries r asset).
Proof. unfold get_expiries. apply sorted_strict, NoDup_elements. Qed.

Example sample_expiries :
  get_expiries (store_of sample_db) "BTC" = ["27SEP24"; "30JUN24"].
Proof. vm_compute. reflexivity. Qed.

(** *** Expiries and the query *)

Lemma expiry_rejects_false_eq (E p : string) (parts : list string) :
  E ≠ "" → E ≠ "all" →
  parts !! 1%nat = Some p →
  expiry_rejects (Some E) parts = false → p = E.
Proof.
  intros HE Hall Hp. unfold expiry_rejects. rewrite Hp.
  destruct (String.eqb_spec E "all") as [|_]; [done|].
  destruct (String.eqb_spec p E) as [|_]; [done|].
  by destruct E.
Qed.

(** The expiry of every row of a query is either one [get_expiries] lists
    for the asset or the placeholder "N/A". *)
Theorem query_expiries_are_listed (F : PyFloat) (r : Redis) (asset : string)
    (e t : option string) (row : Row) :
  row ∈ fst (get_options_data r asset e t) →
  expiry row ∈ get_expiries r asset ∨ expiry row = "N/A".
Proof.
  rewrite get_options_data_spec. simpl. rewrite sort_by_volume_perm.
  intros Hrow.
  apply scanned_row in Hrow as (key & data & Hin & _ & _ & _ & Hrow).
  apply format_row_Some in Hrow as (_ & -> & _).
  destruct (parts_of_key key !! 1%nat) as [p|] eqn:Hp; [left|by right].
  simpl. apply expiry_of_key_is_listed. exists key.
  split; [|done]. by apply subseteq_take in Hin.
Qed.

Lemma query_expiries_are_listed_witness :
  let row := mkRow (F := IntFloat) "BTC-30JUN24-60000-C" "30JUN24" "60000" "Call"
               800%Z 0%Z 50%Z 0%Z 0%Z 0%Z 0%Z 0%Z 0%Z 0%Z 0%Z in
  expiry row ∈ get_expiries (store_of sample_db) "BTC" ∨ expiry row = "N/A".
Proof.
  apply (query_expiries_are_listed IntFloat (store_of sample_db) "BTC"
           (Some "30JUN24") (Some "call")).
  vm_compute. left.
Defined.

(** A query filtered by an expiry that [get_expiries] does not list for
    the asset returns no row (for an expiry filter that is set, and keys
    that contain the separator). *)
Theorem unlisted_expiry_gives_nothing (F : PyFloat) (r : Redis)
    (asset E : string) (t : option string) :
  E ≠ "" → E ≠ "all" →
  Forall (fun key => (0 < PyStr.count "-" key)%nat)
         (KEYS r ("option:" ++ asset ++ "-*")) →
  E ∉ get_expiries r asset →
  fst (get_options_data r asset (Some E) t) = [].
Proof.
  intros HE Hall Hkeys Hno. rewrite get_options_data_spec. simpl.
  assert (scanned r (Some E) t
            (take SCAN_CAP (KEYS r ("option:" ++ asset ++ "-*"))) = []) as ->;
    [|done].
  apply elem_of_nil_inv. intros row Hrow.
  apply scanned_row in Hrow as (key & data & Hin & _ & Hexp & _ & _).
  apply subseteq_take in Hin. rewrite Forall_forall in Hkeys.
  destruct (symbol_has_expiry key (Hkeys key Hin)) as [p Hp].
  apply (expiry_rejects_false_eq E p) in Hexp as ->; [|done..].
  apply Hno, expiry_of_key_is_listed. eauto.
Qed.

Lemma unlisted_expiry_gives_nothing_witness :
  fst (get_options_data (F := IntFloat) (store_of sample_db) "BTC"
         (Some "28MAR25") (Some "call")) = [].
Proof.
  apply (unlisted_expiry_gives_nothing IntFloat (store_of sample_db) "BTC"
           "28MAR25" (Some "call")).
  - discriminate.
  - discriminate.
  - repeat constructor; apply (prefixed_key_has_separator "BTC"); reflexivity.
  - vm_compute. intros H.
    repeat (apply elem_of_cons in H as [H|H]; [discriminate|]).
    by apply elem_of_nil in H.
Defined.

(** * Statistics *)

(** [get_stats] returns the empty dictionary exactly when one of the three
    commands raises or the [messages] field is a string [int] rejects; a
    missing [messages] field is not a failure. *)
Theorem get_stats_empty_iff (int_of_str : string → option Z) (r : Redis)
    (srv : ServerInfo) :
  get_stats int_of_str r srv = None
  ↔ HGETALL r "stats:global" = None
    ∨ DBSIZE srv = None
    ∨ INFO_memory srv = None
    ∨ ∃ stats s, HGETALL r "stats:global" = Some stats
                 ∧ stats !! "messages" = Some s ∧ int_of_str s = None.
Proof.
  unfold get_stats.
  destruct (HGETALL r "stats:global") as [stats|]; simpl; [|by split; auto].
  destruct (DBSIZE srv) as [n|]; simpl; [|by split; auto].
  destruct (stats !! "messages") as [s|] eqn:Hs; simpl.
  - destruct (int_of_str s) as [m|] eqn:Hm; simpl.
    + destruct (INFO_memory srv); simpl; [|by split; auto].
      split; [done|].
      intros [?|[?|[?|(st & s' & [= <-] & Hs' & Hm')]]]; try done.
      congruence.
    + split; [|done]. intros _. right. right. right. eauto.
  - destruct (INFO_memory srv); simpl; [|by split; auto].
    split; [done|].
    intros [?|[?|[?|(st & s' & [= <-] & Hs' & Hm')]]]; try done.
    congruence.
Qed.

(** When the commands succeed, [total_symbols] is half the database size
    rounded down, and a hash without [messages] and [last_update] gives 0
    and "N/A". *)
Example get_stats_defaults :
  get_stats int_literal
    (mkRedis (fun _ => []) (fun _ => Some ∅))
    (mkServerInfo (Some 7%nat) (Some (<["used_memory_human" := "1.05M"]> ∅)))
  = Some (mkStats 3 0 "N/A" "1.05M").
Proof. vm_compute. reflexivity. Qed.

Example get_stats_empty_messages :
  get_stats int_literal
    (mkRedis (fun _ => []) (fun _ => Some (<["messages" := ""]> ∅)))
    (mkServerInfo (Some 7%nat) (Some ∅))
  = None.
Proof. vm_compute. reflexivity. Qed.
